(** * A shallow embedding of grader_0.py (AI-assisted grader)

    The Python program is modelled as follows.
    - Python [str] values are Stdlib [string]s (ASCII characters).
    - Python [float] values are exact rationals [Q].  The only float
      operations of the program are [float(...)] on a [0-9.]+ string,
      [min]/[max] against the constants 0.0 and 10.0 and the running sum
      [total_score += score]; rounding to binary64 is monotone and
      leaves 0.0, 5.0 and 10.0 exact, so the order facts proved here
      hold for both.
    - Exceptions are an [outcome] and statements run in a state/exception
      monad [M] over the part of the world the program touches: the
      files and directories on disk, the rows of the CSV report and the
      lines printed to the console.
    - The external services (ollama, the PDF reader, the zip reader) are
      inputs: the inference endpoint is a function from the prompt to an
      optional reply ([None] when the call raises), the PDF is its list of
      page texts, an archive is its name and the outcome of extraction. *)

From Stdlib Require Import String Ascii List Bool ZArith QArith Lia Lqa.
Import ListNotations.
Open Scope nat_scope.
Open Scope string_scope.

(* ------------------------------------------------------------------ *)
(** ** Python string helpers *)

Definition nl : ascii := Ascii.ascii_of_nat 10.
Definition nl_s : string := String nl EmptyString.

(** ["\n".join(xs)] *)
Definition py_join_nl (xs : list string) : string := String.concat nl_s xs.

(** Characters for which Python's [str.isspace] holds, restricted to ASCII:
    \t \n \x0b \x0c \r, \x1c-\x1f and the space. *)
Definition is_py_space (c : ascii) : bool :=
  let n := Ascii.nat_of_ascii c in
  (((9 <=? n) && (n <=? 13)) || ((28 <=? n) && (n <=? 32)))%nat.

Fixpoint drop_spaces (l : list ascii) : list ascii :=
  match l with
  | [] => []
  | c :: l' => if is_py_space c then drop_spaces l' else l
  end.

(** [s.strip()] *)
Definition py_strip (s : string) : string :=
  string_of_list_ascii
    (rev (drop_spaces (rev (drop_spaces (list_ascii_of_string s))))).

(** [s.split(sep)] for a one-character separator. *)
Fixpoint py_split (sep : ascii) (s : string) : list string :=
  match s with
  | EmptyString => [EmptyString]
  | String c s' =>
      let rest := py_split sep s' in
      if Ascii.eqb c sep then EmptyString :: rest
      else match rest with
           | x :: xs => String c x :: xs
           | [] => [String c EmptyString]
           end
  end.

(** [s.rfind(c)], with [-1] as [None]. *)
Fixpoint py_rfind (c : ascii) (s : string) : option nat :=
  match s with
  | EmptyString => None
  | String d s' =>
      match py_rfind c s' with
      | Some i => Some (S i)
      | None => if Ascii.eqb c d then Some 0 else None
      end
  end.

(** The final component of a slash-separated path ([PurePath.name]). *)
Definition path_name (p : string) : string :=
  List.last (py_split "/"%char p) EmptyString.

(** [PurePath.stem]: [name[:i]] when [0 < i < len(name) - 1] for
    [i = name.rfind('.')], otherwise the whole name. *)
Definition path_stem (p : string) : string :=
  let name := path_name p in
  match py_rfind "."%char name with
  | Some i => if ((0 <? i) && (i <? String.length name - 1))%nat
              then String.substring 0 i name else name
  | None => name
  end.

(** [PurePath.suffix]: [name[i:]] under the same condition, else [""]. *)
Definition path_suffix (p : string) : string :=
  let name := path_name p in
  match py_rfind "."%char name with
  | Some i => if ((0 <? i) && (i <? String.length name - 1))%nat
              then String.substring i (String.length name - i)%nat name
              else EmptyString
  | None => EmptyString
  end.

(* ------------------------------------------------------------------ *)
(** ** extract_requirements (lines 17-29)

    [fitz.open(pdf_path)] is modelled by its result: the list of the
    texts [page.get_text()] of the pages, in order.  The loop below is the
    [for page in doc] loop over [full_text]. *)

Fixpoint extract_loop (full_text : list string) (pages : list string)
  : list string :=
  match pages with
  | [] => full_text
  | page_text :: pages' =>
      if (String.length (py_join_nl full_text) + String.length page_text <? 2500)%nat
      then extract_loop (full_text ++ [page_text]) pages'
      else extract_loop full_text pages'
  end.

Definition extract_requirements (pages : list string) : string :=
  py_join_nl (extract_loop [] pages).

(* ------------------------------------------------------------------ *)
(** ** parse_llm_response (lines 31-47) *)

(** Characters of the class [[0-9.]]. *)
Definition is_score_char (c : ascii) : bool :=
  let n := Ascii.nat_of_ascii c in
  (((48 <=? n) && (n <=? 57)) || (n =? 46))%nat.

(** [Some rest] when [p] is a prefix of [s] and [s = p ++ rest]. *)
Fixpoint strip_prefix (p s : string) : option string :=
  match p, s with
  | EmptyString, _ => Some s
  | String a p', String b s' => if Ascii.eqb a b then strip_prefix p' s' else None
  | String _ _, EmptyString => None
  end.

(** The greedy group [([0-9.]+)]: the longest prefix made of [[0-9.]]. *)
Fixpoint score_run (s : string) : string :=
  match s with
  | String c s' => if is_score_char c then String c (score_run s') else EmptyString
  | EmptyString => EmptyString
  end.

(** [re.search(r"Score\|([0-9.]+)\|?", text)], returning group 1.
    Positions are tried from left to right; at a position the group is the
    maximal run of [[0-9.]] (greedy), and the optional [\|?] never fails. *)
Fixpoint score_search (s : string) : option string :=
  match s with
  | EmptyString => None
  | String _ s' =>
      match strip_prefix "Score|" s with
      | Some rest =>
          match score_run rest with
          | EmptyString => score_search s'
          | g => Some g
          end
      | None => score_search s'
      end
  end.

(** The lazy group [(.*?)] followed by [(\||$)], anchored after
    ["Feedback|"].  [.] does not match a newline; [$] (no MULTILINE)
    matches at the end of the string or before a final newline.  [None]
    is a failure of the match at this start position. *)
Fixpoint feedback_group (s : string) : option string :=
  match s with
  | EmptyString => Some EmptyString
  | String c s' =>
      if Ascii.eqb c "|"%char then Some EmptyString
      else if Ascii.eqb c nl then
        match s' with EmptyString => Some EmptyString | _ => None end
      else option_map (String c) (feedback_group s')
  end.

(** [re.search(r"Feedback\|(.*?)(\||$)", text)], returning group 1. *)
Fixpoint feedback_search (s : string) : option string :=
  match s with
  | EmptyString => None
  | String _ s' =>
      match strip_prefix "Feedback|" s with
      | Some rest =>
          match feedback_group rest with
          | Some g => Some g
          | None => feedback_search s'
          end
      | None => feedback_search s'
      end
  end.

(* ------------------------------------------------------------------ *)
(** ** Exceptions and the state/exception monad *)

(** The exceptions the modelled code can raise.  [FileNotFoundError] and
    [ConnectionError] stand for instances of the built-in classes (or of
    their subclasses), the ones the [except FileNotFoundError] and
    [except ConnectionError] clauses catch; [OtherError cls msg] is an
    exception of any other class: RuntimeError, NotImplementedError,
    zlib.error, PermissionError, PyMuPDF's own FileNotFoundError (a
    RuntimeError), ... *)
Inductive exn : Type :=
| ValueError (msg : string)        (* float() on a malformed numeral *)
| InferenceError                   (* ollama.generate or response['response'] *)
| ReadError (path : string)        (* file.read_text *)
| BadZipFile (path : string)       (* zipfile.BadZipFile *)
| FileNotFoundError (path : string)
| ConnectionError
| SystemExit (code : nat)          (* exit(code) *)
| OtherError (cls msg : string).

Inductive outcome (A : Type) : Type :=
| Ok (a : A)
| Raise (e : exn).
Arguments Ok {A} a.
Arguments Raise {A} e.

(** A file system node: a directory, or a regular file whose content is
    [Some text], or [None] when reading it raises. *)
Inductive node : Type :=
| NDir
| NFile (content : option string).

(** One CSV row: ASURITE, File, Score, Feedback, Total.  The score and the
    total are kept as numbers; the program writes them formatted as
    [f"{score:.1f}/10"] and [f"{total_score:.1f}/40"]. *)
Record row : Type := mkRow {
  row_asurite : string;
  row_file : string;
  row_score : Q;
  row_feedback : string;
  row_total : Q
}.

Record state : Type := mkState {
  st_fs : list (string * node);   (* existing paths, in listing order *)
  st_rows : list row;             (* rows of grades.csv after the header *)
  st_log : list string            (* lines printed to the console *)
}.

Definition M (A : Type) : Type := state -> outcome A * state.

Definition ret {A} (a : A) : M A := fun s => (Ok a, s).
Definition raise {A} (e : exn) : M A := fun s => (Raise e, s).
Definition bind {A B} (m : M A) (k : A -> M B) : M B :=
  fun s => match m s with
           | (Ok a, s') => k a s'
           | (Raise e, s') => (Raise e, s')
           end.
Notation "x <- m ;; k" := (bind m (fun x => k))
  (at level 61, m at next level, right associativity).
Notation "m ;;; k" := (bind m (fun _ => k)) (at level 61, right associativity).

(** A step whose outcome is given: a value or the exception it raises. *)
Definition of_outcome {A} (o : outcome A) : M A := fun s => (o, s).

(** [try: m except Exception as e: h(e)] (the code run under such a
    [try] never raises [SystemExit]). *)
Definition try_except {A} (m : M A) (h : exn -> M A) : M A :=
  fun s => match m s with
           | (Ok a, s') => (Ok a, s')
           | (Raise e, s') => h e s'
           end.

Definition print (msg : string) : M unit :=
  fun s => (Ok tt, mkState (st_fs s) (st_rows s) (st_log s ++ [msg])).

Definition write_row (r : row) : M unit :=
  fun s => (Ok tt, mkState (st_fs s) (st_rows s ++ [r]) (st_log s)).

Definition DEBUG_MODE : bool := true.

(* ------------------------------------------------------------------ *)
(** ** float() and the clamp *)

Definition digit_value (c : ascii) : Z := Z.of_nat (Ascii.nat_of_ascii c) - 48.

(** [float(s)] on the strings the score group can hold (characters of
    [[0-9.]]): at least one digit and at most one dot, else [ValueError].
    [num] collects the digits, [den] is 10 to the number of digits after
    the dot. *)
Fixpoint py_float_go (s : string) (num : Z) (den : positive)
  (seen_dot has_digit : bool) : option Q :=
  match s with
  | EmptyString => if has_digit then Some (Qmake num den) else None
  | String c s' =>
      if Ascii.eqb c "."%char then
        if seen_dot then None else py_float_go s' num den true has_digit
      else if is_score_char c then
        py_float_go s' (num * 10 + digit_value c)
          (if seen_dot then (den * 10)%positive else den) seen_dot true
      else None
  end.

Definition py_float (s : string) : outcome Q :=
  match py_float_go s 0 1 false false with
  | Some q => Ok q
  | None => Raise (ValueError ("could not convert string to float: " ++ s))
  end.

(** Python's [min(a, b)] keeps [a] unless [b < a]; [max(a, b)] keeps [a]
    unless [b > a]. *)
Definition py_min (a b : Q) : Q := if Qle_bool a b then a else b.
Definition py_max (a b : Q) : Q := if Qle_bool b a then a else b.

(** The body of the [try] in [parse_llm_response], lines 35-43. *)
Definition parse_body (text : string) : outcome (Q * string) :=
  let score_match := score_search text in
  let feedback_match := feedback_search text in
  let score_r :=
    match score_match with
    | Some g => py_float g
    | None => Ok 5%Q
    end in
  match score_r with
  | Raise e => Raise e
  | Ok score =>
      let feedback :=
        match feedback_match with
        | Some g => py_strip g
        | None => "No feedback parsed"
        end in
      Ok (py_max 0%Q (py_min 10%Q score), feedback)
  end.

Definition exn_message (e : exn) : string :=
  match e with
  | ValueError m => m
  | InferenceError => "inference call failed"
  | ReadError p => p
  | BadZipFile p => p
  | FileNotFoundError p => p
  | ConnectionError => "connection error"
  | SystemExit _ => ""
  | OtherError _ m => m
  end.

Definition parse_llm_response (text : string) : M (Q * string) :=
  try_except
    (fun s => (parse_body text, s))
    (fun e =>
       (if DEBUG_MODE then print ("Parse error: " ++ exn_message e) else ret tt);;;
       ret (5%Q, "Could not parse analysis results")).

(* ------------------------------------------------------------------ *)
(** ** analyze_submission (lines 49-84) *)

(** The f-string prompt of lines 51-63. *)
Definition build_prompt (file_path content requirements : string) : string :=
  String.concat nl_s
    [ "EVALUATION TASK:";
      "1. Review this code/config file against these requirements:";
      requirements;
      "";
      "2. File: " ++ file_path;
      "3. Content (truncated if long):";
      String.substring 0 2500 content;      (* content[:2500] *)
      "";
      "FORMAT REQUIREMENTS:";
      "- Respond ONLY with these 2 lines:";
      "Score|<0-10 with decimal>|";
      "Feedback|<concise issues>|";
      "- No other text or explanations" ].

Section Grader.

(** [ollama.generate(model="codellama:7b", prompt=..., format="json",
    options={'temperature': 0.2, 'timeout': 45})['response']]: the reply
    text, or [None] when the call (or the [['response']] lookup) raises. *)
Variable generate : string -> option string.

Definition ollama_generate (prompt : string) : M string :=
  match generate prompt with
  | Some r => ret r
  | None => raise InferenceError
  end.

Definition analyze_submission (file_path content requirements : string)
  : M (Q * string) :=
  let prompt := build_prompt file_path content requirements in
  try_except
    (response <- ollama_generate prompt;;
     (if DEBUG_MODE then
        print ("RAW LLM RESPONSE (" ++ file_path ++ "):");;;
        print response;;;
        print "----END RAW RESPONSE----"
      else ret tt);;;
     parse_llm_response response)
    (fun e =>
       print ("Error analyzing " ++ file_path ++ ": " ++ exn_message e);;;
       ret (0%Q, "Analysis failed")).

(* ------------------------------------------------------------------ *)
(** ** process_submissions (lines 86-131) *)

(** The outcome of [zipfile.ZipFile(zip_path)] and [zf.extractall]:
    [ZipOk members] opens and writes every member; [ZipBad e] raises [e]
    when the archive is opened (BadZipFile, IsADirectoryError,
    PermissionError, ...); [ZipExtractFails written e] writes [written]
    and then raises [e] (BadZipFile on a bad CRC, RuntimeError for an
    encrypted member, NotImplementedError for an unsupported compression
    method, zlib.error for corrupt data, an OSError of the disk).  A
    member is its path below the target directory as zipfile writes it
    (zipfile drops the empty, ['.'] and ['..'] components of the name),
    and its node; a member left half-written appears with the content it
    was left with. *)
Inductive zipdata : Type :=
| ZipOk (members : list (string * node))
| ZipBad (e : exn)
| ZipExtractFails (written : list (string * node)) (e : exn).

Record archive : Type := mkArchive {
  zip_name : string;   (* the file name matched by glob("*.zip") *)
  zip_data : zipdata
}.

(** [zip_path.stem.split("-")[0]] *)
Definition asurite_of_stem (stem : string) : string :=
  List.hd EmptyString (py_split "-"%char stem).

Definition asurite_id (zip_path : string) : string :=
  asurite_of_stem (path_stem zip_path).

(** [Path(f"temp/{asurite_id}")] as pathlib spells it: an empty or ['.']
    last component is dropped, so the id [""] names [temp] itself.  The
    id contains no ['/'].  The id ['..'] names the working directory
    itself, which the path strings of this model do not resolve: the
    theorems on the file system exclude that id. *)
Definition extract_dir_of (asurite : string) : string :=
  if String.eqb asurite "" || String.eqb asurite "." then "temp"
  else "temp/" ++ asurite.

Definition is_under (dir p : string) : bool :=
  String.eqb p dir || String.prefix (dir ++ "/") p.

(** The file system is the list of the existing paths (relative to the
    working directory, without [.], [..] or doubled slashes) with their
    nodes. *)
Definition path_exists (p : string) (fs : list (string * node)) : bool :=
  existsb (fun e => String.eqb (fst e) p) fs.

Definition is_dir (p : string) (fs : list (string * node)) : bool :=
  existsb (fun e => String.eqb (fst e) p &&
                    match snd e with NDir => true | NFile _ => false end) fs.

(** Writing a file: an existing path of the same name is replaced. *)
Definition add_path (p : string) (n : node) (fs : list (string * node))
  : list (string * node) :=
  filter (fun e => negb (String.eqb (fst e) p)) fs ++ [(p, n)].

(** [os.mkdir(d)] when [d] does not exist yet. *)
Definition mkdir_missing (d : string) (fs : list (string * node))
  : list (string * node) :=
  if path_exists d fs then fs else fs ++ [(d, NDir)].

(** The prefixes of [acc ++ s] that end just before a ['/'] of [s]: the
    directories above the path [acc ++ s], outermost first. *)
Fixpoint slash_prefixes (acc s : string) : list string :=
  match s with
  | EmptyString => []
  | String c s' =>
      if Ascii.eqb c "/"%char
      then acc :: slash_prefixes (acc ++ String c EmptyString) s'
      else slash_prefixes (acc ++ String c EmptyString) s'
  end.

(** [ZipFile._extract_member(member, dir)]: [os.makedirs] of the missing
    directories above the target; then a directory member is created
    when absent and a file member is written. *)
Definition extract_member (dir : string) (fs : list (string * node))
  (m : string * node) : list (string * node) :=
  let target := dir ++ "/" ++ fst m in
  let fs1 := fold_left (fun acc d => mkdir_missing d acc)
               (slash_prefixes EmptyString target) fs in
  match snd m with
  | NDir => mkdir_missing target fs1
  | NFile c => add_path target (NFile c) fs1
  end.

(** [zf.extractall(extract_dir)]: the members one after the other; an
    archive without members creates nothing, not even [extract_dir]. *)
Definition extractall_fs (dir : string) (members : list (string * node))
  (fs : list (string * node)) : list (string * node) :=
  fold_left (extract_member dir) members fs.

Definition extractall (dir : string) (members : list (string * node)) : M unit :=
  fun s => (Ok tt, mkState (extractall_fs dir members (st_fs s)) (st_rows s) (st_log s)).

(** [os.path.dirname(p)] for the paths of the file system. *)
Definition parent_of (p : string) : string :=
  match py_rfind "/"%char p with
  | Some i => String.substring 0 i p
  | None => EmptyString
  end.

(** The order in which [os.scandir] lists a directory is the file
    system's: entries come by increasing [scandir_rank fs p], which the
    file system may choose freely. *)
Variable scandir_rank : list (string * node) -> string -> Z.

Fixpoint insert_by_rank (k : string -> Z) (x : string * node)
  (l : list (string * node)) : list (string * node) :=
  match l with
  | [] => [x]
  | y :: l' => if (k (fst x) <? k (fst y))%Z then x :: l else y :: insert_by_rank k x l'
  end.

Fixpoint sort_by_rank (k : string -> Z) (l : list (string * node))
  : list (string * node) :=
  match l with
  | [] => []
  | x :: l' => insert_by_rank k x (sort_by_rank k l')
  end.

(** [os.scandir(d)]: the entries whose parent is [d]. *)
Definition scandir (fs : list (string * node)) (d : string) : list (string * node) :=
  sort_by_rank (scandir_rank fs)
    (filter (fun e => String.eqb (parent_of (fst e)) d) fs).

(** [_RecursiveWildcardSelector._iterate_directories] (Python 3.11): the
    directory, then depth-first each subdirectory in scandir order.  The
    fuel is the number of paths, more than the depth of any directory. *)
Fixpoint walk_dirs (fuel : nat) (fs : list (string * node)) (d : string)
  : list string :=
  match fuel with
  | O => [d]
  | S f =>
      d :: flat_map (fun e => match snd e with
                              | NDir => walk_dirs f fs (fst e)
                              | NFile _ => []
                              end) (scandir fs d)
  end.

(** [extract_dir.rglob('*')]: nothing when [dir] is not a directory;
    otherwise, for each directory of the walk, its entries in scandir
    order (all names match ['*']). *)
Definition rglob_paths (fs : list (string * node)) (dir : string)
  : list (string * node) :=
  if is_dir dir fs then flat_map (scandir fs) (walk_dirs (length fs) fs dir)
  else [].

Definition rglob (dir : string) : M (list (string * node)) :=
  fun s => (Ok (rglob_paths (st_fs s) dir), s).

(** The paths that [shutil.rmtree] cannot remove: those whose [unlink]
    or [rmdir] the operating system refuses, or that sit in a directory
    it cannot list. *)
Variable refused : string -> bool.

(** A path stays when a refused path lies at or below it: a directory
    that keeps an entry cannot be removed. *)
Definition stuck (fs : list (string * node)) (p : string) : bool :=
  existsb (fun q => is_under p (fst q) && refused (fst q)) fs.

(** [shutil.rmtree(extract_dir, ignore_errors=True)]: when [dir] is a
    directory, everything under it and itself are removed except the
    stuck paths, and the refusals are ignored; on a missing path or a
    file it does nothing. *)
Definition rmtree_fs (dir : string) (fs : list (string * node)) : list (string * node) :=
  if is_dir dir fs
  then filter (fun e => negb (is_under dir (fst e)) || stuck fs (fst e)) fs
  else fs.

Definition rmtree (dir : string) : M unit :=
  fun s => (Ok tt, mkState (rmtree_fs dir (st_fs s)) (st_rows s) (st_log s)).

(** [file.read_text(encoding='utf-8', errors='ignore')] *)
Definition read_text (p : string) (n : node) : M string :=
  match n with
  | NFile (Some c) => ret c
  | _ => raise (ReadError p)
  end.

(** [file.relative_to(extract_dir)] *)
Definition relative_to (p dir : string) : string :=
  String.substring (String.length dir + 1) (String.length p) p.

Definition eligible (p : string) (n : node) : bool :=
  match n with
  | NFile _ =>
      let suf := path_suffix p in
      String.eqb suf ".py" || String.eqb suf ".yaml" || String.eqb suf ".yml"
  | NDir => false
  end.

(** One iteration of [for file in extract_dir.rglob('*')]: returns the
    new [total_score]. *)
Definition process_file (requirements asurite dir : string) (total_score : Q)
  (file : string * node) : M Q :=
  let (p, n) := file in
  if eligible p n then
    try_except
      (content <- read_text p n;;
       let rel_path := relative_to p dir in
       print ("  Analyzing: " ++ rel_path);;;
       sf <- analyze_submission rel_path content requirements;;
       let (score, feedback) := sf in
       let total_score' := (total_score + score)%Q in
       print ("    Feedback: " ++ feedback);;;
       write_row (mkRow asurite rel_path score feedback total_score');;;
       ret total_score')
      (fun e =>
         print ("Error processing " ++ p ++ ": " ++ exn_message e);;;
         ret total_score)
  else ret total_score.

Fixpoint process_files (requirements asurite dir : string) (total_score : Q)
  (files : list (string * node)) : M Q :=
  match files with
  | [] => ret total_score
  | f :: fs =>
      t <- process_file requirements asurite dir total_score f;;
      process_files requirements asurite dir t fs
  end.

(** The body of [for zip_path in Path(SUBMISSIONS_DIR).glob("*.zip")]. *)
Definition process_archive (requirements : string) (a : archive) : M unit :=
  let asurite := asurite_id (zip_name a) in
  let total_score := 0%Q in
  print ("Processing submission: " ++ asurite);;;
  let extract_dir := extract_dir_of asurite in
  match zip_data a with
  | ZipBad e => raise e
  | ZipExtractFails written e =>
      extractall extract_dir written;;;
      raise e
  | ZipOk members =>
      extractall extract_dir members;;;
      files <- rglob extract_dir;;
      process_files requirements asurite extract_dir total_score files;;;
      rmtree extract_dir
  end.

Fixpoint process_archives (requirements : string) (archives : list archive)
  : M unit :=
  match archives with
  | [] => ret tt
  | a :: rest => process_archive requirements a;;; process_archives requirements rest
  end.

(** [extract_requirements(pdf_path)] around [fitz.open(pdf_path)], given
    by what it gives: the page texts, or the exception it raises.  Only
    the built-in [FileNotFoundError] is caught, and [exit(1)] raises
    [SystemExit]; any other exception propagates. *)
Definition extract_requirements_file (pdf_path : string)
  (pdf : outcome (list string)) : M string :=
  match pdf with
  | Ok pages => ret (extract_requirements pages)
  | Raise (FileNotFoundError _) =>
      print ("Error: Requirement PDF not found at " ++ pdf_path);;;
      raise (SystemExit 1)
  | Raise e => raise e
  end.

(** [process_submissions()]: the requirements are read from the PDF
    first; then [open(OUTPUT_CSV, 'w')] either raises [e]
    ([csv_open = Some e]: a read-only or locked grades.csv, ...) or
    empties the report.  The header row is left implicit in [st_rows].
    The submissions directory is given by its archives in glob order. *)
Definition process_submissions (pdf_path : string) (pdf : outcome (list string))
  (csv_open : option exn) (archives : list archive) : M unit :=
  requirements <- extract_requirements_file pdf_path pdf;;
  match csv_open with
  | Some e => raise e
  | None => fun s => process_archives requirements archives
                       (mkState (st_fs s) [] (st_log s))
  end.

End Grader.

(* ------------------------------------------------------------------ *)
(** ** Auxiliary definitions for the statements *)

Definition empty_state : state := mkState [] [] [].

(** Every occurrence of ["Score|"] in [s] is immediately followed by a
    minus sign. *)
Fixpoint score_fields_negative (s : string) : bool :=
  match s with
  | EmptyString => true
  | String _ s' =>
      match strip_prefix "Score|" s with
      | Some (String c _) => Ascii.eqb c "-"%char
      | Some EmptyString => false
      | None => true
      end && score_fields_negative s'
  end.

(** The two-line reply the prompt asks for. *)
Definition reply_template (score feedback : string) : string :=
  "Score|" ++ score ++ "|" ++ nl_s ++ "Feedback|" ++ feedback ++ "|".

Definition all_chars (p : ascii -> bool) (s : string) : bool :=
  forallb p (list_ascii_of_string s).

Definition not_F (c : ascii) : bool := negb (Ascii.eqb c "F"%char).

Definition not_dash (c : ascii) : bool := negb (Ascii.eqb c "-"%char).

(** [n] copies of the character [c] (test data). *)
Fixpoint replicate_char (n : nat) (c : ascii) : string :=
  match n with
  | O => EmptyString
  | S n' => String c (replicate_char n' c)
  end.

(** [l1] is obtained from [l2] by dropping elements, keeping the order. *)
Inductive subseq {A : Type} : list A -> list A -> Prop :=
| subseq_nil : subseq [] []
| subseq_keep x l1 l2 : subseq l1 l2 -> subseq (x :: l1) (x :: l2)
| subseq_skip x l1 l2 : subseq l1 l2 -> subseq l1 (x :: l2).

(** An inference endpoint that always answers [reply]. *)
Definition fixed_reply (reply : string) : string -> option string :=
  fun _ => Some reply.

(** The rows [rows], written after a running total [acc], each add a
    non-negative score to the previous total. *)
Fixpoint running_totals (acc : Q) (rows : list row) : Prop :=
  match rows with
  | [] => True
  | r :: rs =>
      (0 <= row_score r)%Q /\ row_total r = (acc + row_score r)%Q /\
      running_totals (row_total r) rs
  end.

Fixpoint last_total (acc : Q) (rows : list row) : Q :=
  match rows with
  | [] => acc
  | r :: rs => last_total (row_total r) rs
  end.


(* ------------------------------------------------------------------ *)
(** ** The [__main__] block (lines 133-157) *)

(** How a run of the script ends: normally, through [exit(code)] (the
    [SystemExit] exception, which no handler of the script catches), or
    with another exception that nothing catches. *)
Inductive run_result : Type :=
| Completed
| Exited (code : nat)
| Uncaught (e : exn).

Definition connection_guidance : string :=
  String.concat nl_s
    [ "";
      "ERROR: Could not connect to Ollama. For Windows users:";
      "1. Ensure Docker Desktop is running";
      "2. Start Ollama in Docker:";
      "   docker run -d -p 11434:11434 --name ollama ollama/ollama";
      "3. Pull the required model:";
      "   docker exec ollama ollama pull codellama:7b";
      "4. Verify it's working:";
      "   docker exec ollama ollama list";
      "5. Run this script again." ].

(** The [try] block of lines 134-144.  [models] is what
    [ollama.list()['models']] and the [m['model']] lookups give: the
    model names, or the exception raised. *)
Definition main_body (generate : string -> option string)
  (scandir_rank : list (string * node) -> string -> Z) (refused : string -> bool)
  (models : outcome (list string)) (pdf_path : string)
  (pdf : outcome (list string)) (csv_open : option exn)
  (archives : list archive) : M unit :=
  print "Checking Ollama connection...";;;
  ms <- of_outcome models;;
  if negb (existsb (String.eqb "codellama:7b") ms) then
    print "Model 'codellama:7b' not found. Install with:";;;
    print "docker exec ollama ollama pull codellama:7b";;;
    raise (SystemExit 1)
  else
    process_submissions generate scandir_rank refused pdf_path pdf csv_open archives;;;
    print "Grading complete. Results saved to grades.csv".

(** The script run: the [try] block with its [except ConnectionError]
    handler, and how the interpreter ends. *)
Definition main (generate : string -> option string)
  (scandir_rank : list (string * node) -> string -> Z) (refused : string -> bool)
  (models : outcome (list string)) (pdf_path : string)
  (pdf : outcome (list string)) (csv_open : option exn)
  (archives : list archive) (st : state) : run_result * state :=
  let handled :=
    match main_body generate scandir_rank refused models pdf_path pdf csv_open
            archives st with
    | (Raise ConnectionError, s) => (print connection_guidance;;; raise (SystemExit 1)) s
    | r => r
    end in
  match handled with
  | (Ok _, s) => (Completed, s)
  | (Raise (SystemExit c), s) => (Exited c, s)
  | (Raise e, s) => (Uncaught e, s)
  end.


Definition no_pipe_nl (c : ascii) : bool :=
  negb (Ascii.eqb c "|"%char) && negb (Ascii.eqb c nl).


(* ------------------------------------------------------------------ *)
(** ** Lemmas on the embedding *)

Lemma string_app_assoc a b c : (a ++ b) ++ c = a ++ b ++ c.
Proof. induction a as [|x a IH]; simpl; [reflexivity|]. rewrite IH. reflexivity. Qed.

Lemma list_ascii_of_string_app a b :
  list_ascii_of_string (a ++ b) = (list_ascii_of_string a ++ list_ascii_of_string b)%list.
Proof. induction a as [|x a IH]; simpl; [reflexivity|]. rewrite IH. reflexivity. Qed.

Lemma strip_prefix_app p r : strip_prefix p (p ++ r) = Some r.
Proof.
  induction p as [|a p IH]; simpl; [reflexivity|].
  rewrite Ascii.eqb_refl. exact IH.
Qed.

Lemma strip_prefix_some p s r : strip_prefix p s = Some r -> s = p ++ r.
Proof.
  revert s; induction p as [|a p IH]; intros s H; simpl in *.
  - congruence.
  - destruct s as [|b s]; [discriminate|].
    destruct (Ascii.eqb a b) eqn:E; [|discriminate].
    apply Ascii.eqb_eq in E; subst b. f_equal. auto.
Qed.

Lemma clamp_range x : (0 <= py_max 0 (py_min 10 x) <= 10)%Q.
Proof.
  unfold py_max, py_min.
  destruct (Qle_bool 10 x) eqn:E1.
  - replace (Qle_bool 10 0) with false by reflexivity.
    split; apply Qle_bool_imp_le; reflexivity.
  - destruct (Qle_bool x 0) eqn:E2.
    + split; apply Qle_bool_imp_le; reflexivity.
    + assert (H1 : ~ (10 <= x)%Q) by (rewrite <- Qle_bool_iff; congruence).
      assert (H2 : ~ (x <= 0)%Q) by (rewrite <- Qle_bool_iff; congruence).
      apply Qnot_le_lt in H1, H2.
      split; apply Qlt_le_weak; assumption.
Qed.

Lemma parse_llm_response_unfold text st :
  parse_llm_response text st =
  match parse_body text with
  | Ok p => (Ok p, st)
  | Raise e =>
      (Ok (5%Q, "Could not parse analysis results"),
       mkState (st_fs st) (st_rows st) (st_log st ++ ["Parse error: " ++ exn_message e]))
  end.
Proof.
  unfold parse_llm_response, try_except.
  destruct (parse_body text); reflexivity.
Qed.

Lemma parse_body_ok text p :
  parse_body text = Ok p -> (0 <= fst p <= 10)%Q.
Proof.
  unfold parse_body.
  destruct (match score_search text with Some g => py_float g | None => Ok 5%Q end);
    intro H; [|discriminate].
  injection H as <-. apply clamp_range.
Qed.

Lemma score_search_negative s :
  score_fields_negative s = true -> score_search s = None.
Proof.
  induction s as [|c s IH]; intro H; [reflexivity|].
  cbn [score_fields_negative] in H. cbn [score_search].
  apply andb_prop in H as [Hh Ht].
  destruct (strip_prefix "Score|" (String c s)) as [[|d r]|] eqn:E.
  - discriminate.
  - apply Ascii.eqb_eq in Hh. subst d. simpl. auto.
  - auto.
Qed.

Lemma score_run_app s r :
  all_chars is_score_char s = true -> score_run (s ++ String "|" r) = s.
Proof.
  unfold all_chars.
  induction s as [|c s IH]; simpl; intro H; [reflexivity|].
  apply andb_prop in H as [Hc Hs]. rewrite Hc. f_equal. auto.
Qed.

Lemma score_search_head r :
  score_search ("Score|" ++ r) =
  match score_run r with
  | EmptyString => score_search ("core|" ++ r)
  | g => Some g
  end.
Proof. reflexivity. Qed.

Lemma feedback_search_skip x r :
  all_chars not_F x = true -> feedback_search (x ++ r) = feedback_search r.
Proof.
  unfold all_chars.
  induction x as [|c x IH]; intro H; [reflexivity|].
  simpl in H. apply andb_prop in H as [Hc Hx].
  unfold not_F in Hc. apply negb_true_iff in Hc.
  rewrite Ascii.eqb_sym in Hc.
  change (String c x ++ r) with (String c (x ++ r)). cbn [feedback_search].
  replace (strip_prefix "Feedback|" (String c (x ++ r))) with (@None string).
  - auto.
  - change (strip_prefix "Feedback|" (String c (x ++ r)))
      with (if Ascii.eqb "F" c then strip_prefix "eedback|" (x ++ r) else None).
    rewrite Hc. reflexivity.
Qed.

Lemma feedback_group_app f r :
  all_chars (fun c => negb (Ascii.eqb c "|"%char) && negb (Ascii.eqb c nl)) f = true ->
  feedback_group (f ++ String "|" r) = Some f.
Proof.
  unfold all_chars.
  induction f as [|c f IH]; simpl; intro H; [reflexivity|].
  apply andb_prop in H as [Hc Hf]. apply andb_prop in Hc as [H1 H2].
  apply negb_true_iff in H1, H2. rewrite H1, H2. rewrite IH by exact Hf.
  reflexivity.
Qed.

Lemma score_chars_not_F s :
  all_chars is_score_char s = true -> all_chars not_F s = true.
Proof.
  unfold all_chars. induction s as [|c s IH]; simpl; [reflexivity|].
  intro H. apply andb_prop in H as [Hc Hs]. rewrite IH by exact Hs.
  unfold not_F.
  destruct (Ascii.eqb c "F"%char) eqn:E; [|reflexivity].
  apply Ascii.eqb_eq in E. subst c. discriminate.
Qed.

Lemma parse_body_template_rest s f r :
  s <> EmptyString ->
  all_chars is_score_char s = true ->
  all_chars (fun c => negb (Ascii.eqb c "|"%char) && negb (Ascii.eqb c nl)) f = true ->
  parse_body ("Score|" ++ s ++ "|" ++ nl_s ++ "Feedback|" ++ f ++ String "|" r) =
  match py_float s with
  | Ok q => Ok (py_max 0 (py_min 10 q), py_strip f)
  | Raise e => Raise e
  end.
Proof.
  intros Hne Hs Hf. unfold parse_body.
  assert (Hsc : score_search ("Score|" ++ s ++ "|" ++ nl_s ++ "Feedback|" ++ f ++ String "|" r)
                = Some s).
  { change ("Score|" ++ s ++ "|" ++ nl_s ++ "Feedback|" ++ f ++ String "|" r)
      with ("Score|" ++ (s ++ String "|" (nl_s ++ "Feedback|" ++ f ++ String "|" r))).
    rewrite score_search_head, score_run_app by exact Hs.
    destruct s; [congruence|reflexivity]. }
  assert (Hfb : feedback_search ("Score|" ++ s ++ "|" ++ nl_s ++ "Feedback|" ++ f ++ String "|" r)
                = Some f).
  { replace ("Score|" ++ s ++ "|" ++ nl_s ++ "Feedback|" ++ f ++ String "|" r)
      with (("Score|" ++ s ++ "|" ++ nl_s) ++ ("Feedback|" ++ f ++ String "|" r)).
    2:{ rewrite !string_app_assoc. reflexivity. }
    rewrite feedback_search_skip.
    - simpl. rewrite feedback_group_app by exact Hf. reflexivity.
    - unfold all_chars. rewrite list_ascii_of_string_app. simpl.
      rewrite list_ascii_of_string_app, forallb_app. simpl.
      pose proof (score_chars_not_F s Hs) as H. unfold all_chars in H.
      rewrite H. reflexivity. }
  rewrite Hsc, Hfb. destruct (py_float s); reflexivity.
Qed.

Lemma parse_body_template s f :
  s <> EmptyString ->
  all_chars is_score_char s = true ->
  all_chars (fun c => negb (Ascii.eqb c "|"%char) && negb (Ascii.eqb c nl)) f = true ->
  parse_body (reply_template s f) =
  match py_float s with
  | Ok q => Ok (py_max 0 (py_min 10 q), py_strip f)
  | Raise e => Raise e
  end.
Proof.
  intros Hne Hs Hf. exact (parse_body_template_rest s f EmptyString Hne Hs Hf).
Qed.

Lemma parse_body_no_score text :
  score_search text = None ->
  exists fb, parse_body text = Ok (5%Q, fb).
Proof.
  intro H. unfold parse_body. rewrite H.
  eexists. reflexivity.
Qed.

(* ------------------------------------------------------------------ *)
(** ** Claims about parse_llm_response *)

(** C3: whatever the reply, [parse_llm_response] returns normally and the
    score it returns lies in the closed interval [0.0, 10.0]; in
    particular an out-of-range numeral such as ["15.0"] is clamped. *)
Theorem parse_llm_response_score_in_range :
  forall text st, exists score feedback st',
    parse_llm_response text st = (Ok (score, feedback), st') /\
    (0 <= score <= 10)%Q.
Proof.
  intros text st. rewrite parse_llm_response_unfold.
  destruct (parse_body text) as [[score feedback]|e] eqn:E.
  - exists score, feedback, st. split; [reflexivity|].
    exact (parse_body_ok text (score, feedback) E).
  - eexists _, _, _. split; [reflexivity|].
    split; apply Qle_bool_imp_le; reflexivity.
Qed.

(** C5 (counterexample): two replies without a feedback field get two
    different feedback strings: ["Score|.|"] makes [float(".")] raise and
    gets the exception fallback ["Could not parse analysis results"],
    ["Score|5|"] gets ["No feedback parsed"].  So the exception fallback
    is not the missing-feedback placeholder. *)
Lemma parse_llm_response_placeholders_differ :
  feedback_search "Score|.|" = None /\
  feedback_search "Score|5|" = None /\
  fst (parse_llm_response "Score|.|" empty_state)
    = Ok (5%Q, "Could not parse analysis results") /\
  fst (parse_llm_response "Score|5|" empty_state)
    = Ok (5%Q, "No feedback parsed").
Proof. repeat split; reflexivity. Qed.

(** C5 (as amended): a reply without a score field gets the score 5.0; a
    reply without a feedback field gets ["No feedback parsed"] whenever
    the score conversion succeeds (no score field, or a score that
    [float()] accepts); an exception while parsing gives
    (5.0, ["Could not parse analysis results"]), a different placeholder;
    and [parse_llm_response] always returns normally. *)
Theorem parse_llm_response_fallbacks :
  (forall text st, score_search text = None ->
     exists fb, fst (parse_llm_response text st) = Ok (5%Q, fb)) /\
  (forall text st, feedback_search text = None ->
     (forall g, score_search text = Some g -> exists q, py_float g = Ok q) ->
     exists sc, fst (parse_llm_response text st) = Ok (sc, "No feedback parsed")) /\
  (forall text st e, parse_body text = Raise e ->
     fst (parse_llm_response text st) = Ok (5%Q, "Could not parse analysis results")) /\
  (forall text st, exists p st', parse_llm_response text st = (Ok p, st')).
Proof.
  split; [|split; [|split]].
  - intros text st H. destruct (parse_body_no_score text H) as [fb E].
    exists fb. rewrite parse_llm_response_unfold, E. reflexivity.
  - intros text st H Hg. rewrite parse_llm_response_unfold.
    unfold parse_body. rewrite H.
    destruct (score_search text) as [g|] eqn:E.
    + destruct (Hg g eq_refl) as [q Hq]. rewrite Hq. eexists. reflexivity.
    + eexists. reflexivity.
  - intros text st e H. rewrite parse_llm_response_unfold, H. reflexivity.
  - intros text st. rewrite parse_llm_response_unfold.
    destruct (parse_body text); eexists _, _; reflexivity.
Qed.

Lemma parse_llm_response_fallbacks_witness :
  score_search "Feedback|fine|" = None /\
  fst (parse_llm_response "Feedback|fine|" empty_state) = Ok (5%Q, "fine") /\
  feedback_search "Score|7|" = None /\
  fst (parse_llm_response "Score|7|" empty_state) = Ok (7%Q, "No feedback parsed") /\
  parse_body "Score|1.2.3|" = Raise (ValueError "could not convert string to float: 1.2.3") /\
  fst (parse_llm_response "Score|1.2.3|" empty_state)
    = Ok (5%Q, "Could not parse analysis results").
Proof.
  destruct parse_llm_response_fallbacks as [H1 [H2 [H3 H4]]].
  split; [reflexivity|]. split.
  - destruct (H1 "Feedback|fine|" empty_state eq_refl) as [fb E].
    rewrite E. vm_compute in E. exact (eq_sym E).
  - split; [reflexivity|]. split.
    + assert (Hg : forall g, score_search "Score|7|" = Some g -> exists q, py_float g = Ok q).
      { intros g E. vm_compute in E. injection E as <-. eexists. reflexivity. }
      destruct (H2 "Score|7|" empty_state eq_refl Hg) as [sc E].
      rewrite E. vm_compute in E. exact (eq_sym E).
    + split; [reflexivity|].
      exact (H3 "Score|1.2.3|" empty_state _ eq_refl).
Defined.

(** C7 (counterexample): the reply ["Score|15|"] / ["Feedback| uses a|b |"]
    has the two-line form, but the parser returns the clamped score 10.0
    and the feedback cut at the first ['|'] and stripped, not the
    substrings ["15"] and [" uses a|b "]. *)
Lemma parse_llm_response_template_not_verbatim :
  fst (parse_llm_response (reply_template "15" " uses a|b ") empty_state)
    = Ok (10%Q, "uses a") /\
  fst (parse_llm_response (reply_template "15" " uses a|b ") empty_state)
    <> Ok (15%Q, " uses a|b ").
Proof.
  split; [reflexivity|]. vm_compute. congruence.
Qed.

(** C7 (as amended): for a reply ["Score|s|"] newline ["Feedback|f|"]
    where [s] is a non-empty [[0-9.]] numeral that [float()] accepts with
    value [q] and [f] contains neither ['|'] nor a newline, the parser
    returns [q] clamped to [0.0, 10.0] and [f.strip()], and changes no
    state; when the feedback is [f] followed by ['|'] and any text [h],
    the parser cuts it at that ['|'] and returns [f.strip()]. *)
Theorem parse_llm_response_template :
  (forall s f q st,
     s <> EmptyString ->
     all_chars is_score_char s = true ->
     py_float s = Ok q ->
     all_chars (fun c => negb (Ascii.eqb c "|"%char) && negb (Ascii.eqb c nl)) f = true ->
     parse_llm_response (reply_template s f) st
       = (Ok (py_max 0 (py_min 10 q), py_strip f), st)) /\
  (forall s f h q st,
     s <> EmptyString ->
     all_chars is_score_char s = true ->
     py_float s = Ok q ->
     all_chars (fun c => negb (Ascii.eqb c "|"%char) && negb (Ascii.eqb c nl)) f = true ->
     parse_llm_response (reply_template s (f ++ "|" ++ h)) st
       = (Ok (py_max 0 (py_min 10 q), py_strip f), st)).
Proof.
  split.
  - intros s f q st Hne Hs Hq Hf.
    rewrite parse_llm_response_unfold, parse_body_template by assumption.
    rewrite Hq. reflexivity.
  - intros s f h q st Hne Hs Hq Hf.
    replace (reply_template s (f ++ "|" ++ h))
      with ("Score|" ++ s ++ "|" ++ nl_s ++ "Feedback|" ++ f ++ String "|" (h ++ "|")).
    2:{ unfold reply_template. rewrite !string_app_assoc. reflexivity. }
    rewrite parse_llm_response_unfold, parse_body_template_rest by assumption.
    rewrite Hq. reflexivity.
Qed.

Lemma parse_llm_response_template_witness :
  parse_llm_response (reply_template "7.5" "good work") empty_state
    = (Ok (py_max 0 (py_min 10 (75 # 10)), py_strip "good work"), empty_state) /\
  parse_llm_response (reply_template "15" (" uses a" ++ "|" ++ "b ")) empty_state
    = (Ok (py_max 0 (py_min 10 15), py_strip " uses a"), empty_state).
Proof.
  destruct parse_llm_response_template as [H1 H2]. split.
  - apply H1.
    + discriminate.
    + reflexivity.
    + reflexivity.
    + reflexivity.
  - apply H2.
    + discriminate.
    + reflexivity.
    + reflexivity.
    + reflexivity.
Defined.

(** C10: if every ["Score|"] of the reply is followed by a minus sign
    (a negative score such as ["Score|-3|"]), the score pattern does not
    match and the parser returns the missing-score default 5.0, not a
    score clamped to 0.0. *)
Theorem parse_llm_response_negative_score_default :
  forall text st,
    score_fields_negative text = true ->
    exists fb, fst (parse_llm_response text st) = Ok (5%Q, fb).
Proof.
  intros text st H.
  destruct (parse_body_no_score text (score_search_negative text H)) as [fb E].
  exists fb. rewrite parse_llm_response_unfold, E. reflexivity.
Qed.

Lemma parse_llm_response_negative_score_default_witness :
  score_fields_negative ("Score|-3|" ++ nl_s ++ "Feedback|bad|") = true /\
  exists fb, fst (parse_llm_response ("Score|-3|" ++ nl_s ++ "Feedback|bad|") empty_state)
               = Ok (5%Q, fb).
Proof.
  split; [reflexivity|].
  apply parse_llm_response_negative_score_default. reflexivity.
Defined.

(* ------------------------------------------------------------------ *)
(** ** Lemmas and claims about extract_requirements *)

Lemma string_length_app a b : String.length (a ++ b) = String.length a + String.length b.
Proof. induction a as [|x a IH]; simpl; [reflexivity|]. rewrite IH. reflexivity. Qed.

Lemma concat_cons2 sep x y l :
  String.concat sep (x :: y :: l) = x ++ sep ++ String.concat sep (y :: l).
Proof. reflexivity. Qed.

Lemma join_snoc_length l p :
  String.length (py_join_nl (l ++ [p])) <= String.length (py_join_nl l) + 1 + String.length p.
Proof.
  unfold py_join_nl.
  induction l as [|x l IH]; [simpl; lia|].
  destruct l as [|y l].
  - change ([x] ++ [p])%list with [x; p].
    change (String.concat nl_s [x; p]) with (x ++ nl_s ++ p).
    change (String.concat nl_s [x]) with x.
    rewrite !string_length_app. simpl. lia.
  - change ((x :: y :: l) ++ [p])%list with (x :: y :: (l ++ [p]))%list.
    change ((y :: l) ++ [p])%list with (y :: (l ++ [p]))%list in IH.
    rewrite !concat_cons2, !string_length_app. lia.
Qed.

Lemma extract_loop_length full pages :
  String.length (py_join_nl full) <= 2500 ->
  String.length (py_join_nl (extract_loop full pages)) <= 2500.
Proof.
  revert full; induction pages as [|p ps IH]; intros full H; simpl; [exact H|].
  destruct (String.length (py_join_nl full) + String.length p <? 2500)%nat eqn:E.
  - apply IH. apply Nat.ltb_lt in E.
    pose proof (join_snoc_length full p). lia.
  - apply IH, H.
Qed.

Lemma extract_loop_subseq full pages :
  exists kept, subseq kept pages /\ extract_loop full pages = (full ++ kept)%list.
Proof.
  revert full; induction pages as [|p ps IH]; intro full; simpl.
  - exists []. split; [constructor|]. rewrite app_nil_r. reflexivity.
  - destruct (String.length (py_join_nl full) + String.length p <? 2500)%nat.
    + destruct (IH (full ++ [p])%list) as [kept [Hs He]].
      exists (p :: kept). split; [constructor; exact Hs|].
      rewrite He, <- app_assoc. reflexivity.
    + destruct (IH full) as [kept [Hs He]].
      exists kept. split; [constructor; exact Hs|exact He].
Qed.

(** C1 (counterexample): with pages of 2000, 1000 and 1 characters, the
    second page would cross the 2500 budget and is skipped, not appended,
    and the accumulation does not stop there: the third page is still
    appended. *)
Lemma extract_requirements_skips_crossing_page :
  let pages := [replicate_char 2000 "a"%char; replicate_char 1000 "b"%char; "c"] in
  extract_requirements pages = py_join_nl [replicate_char 2000 "a"%char; "c"] /\
  extract_requirements pages
    <> py_join_nl [replicate_char 2000 "a"%char; replicate_char 1000 "b"%char].
Proof.
  simpl. split.
  - vm_compute. reflexivity.
  - intro H. apply (f_equal String.length) in H. vm_compute in H. discriminate.
Qed.

(** C1 (as amended): the pages are visited in order; a page is appended
    only when the length of the newline-joined text so far plus the
    page's length is under 2500, otherwise it is skipped and the later
    pages are still considered; the kept pages, in order, are joined with
    newlines, and the result is never longer than 2500 characters. *)
Theorem extract_requirements_budget :
  (forall pages, String.length (extract_requirements pages) <= 2500) /\
  (forall pages, exists kept,
     subseq kept pages /\ extract_requirements pages = py_join_nl kept) /\
  (forall full p ps,
     String.length (py_join_nl full) + String.length p < 2500 ->
     extract_loop full (p :: ps) = extract_loop (full ++ [p]) ps) /\
  (forall full p ps,
     2500 <= String.length (py_join_nl full) + String.length p ->
     extract_loop full (p :: ps) = extract_loop full ps).
Proof.
  split; [|split; [|split]].
  - intro pages. apply extract_loop_length. simpl. lia.
  - intro pages. destruct (extract_loop_subseq [] pages) as [kept [Hs He]].
    exists kept. split; [exact Hs|]. unfold extract_requirements. rewrite He. reflexivity.
  - intros full p ps H. simpl. apply Nat.ltb_lt in H. rewrite H. reflexivity.
  - intros full p ps H. simpl.
    destruct (_ <? 2500)%nat eqn:E; [apply Nat.ltb_lt in E; lia|reflexivity].
Qed.

Lemma extract_requirements_budget_witness :
  extract_loop [] ["ab"; replicate_char 2600 "x"%char; "cd"]
    = extract_loop ["ab"] [replicate_char 2600 "x"%char; "cd"] /\
  extract_loop ["ab"] [replicate_char 2600 "x"%char; "cd"]
    = extract_loop ["ab"] ["cd"].
Proof.
  destruct extract_requirements_budget as [_ [_ [Hkeep Hskip]]].
  split.
  - apply (Hkeep [] "ab"). vm_compute. lia.
  - apply (Hskip ["ab"]). vm_compute. lia.
Defined.

(* ------------------------------------------------------------------ *)
(** ** Claims about the submission identifier *)

Lemma py_split_cons sep c s :
  List.hd EmptyString (py_split sep (String c s)) =
  if Ascii.eqb c sep then EmptyString
  else String c (List.hd EmptyString (py_split sep s)).
Proof.
  simpl. destruct (Ascii.eqb c sep); [reflexivity|].
  destruct (py_split sep s); reflexivity.
Qed.

Lemma asurite_of_stem_dash a b :
  all_chars not_dash a = true -> asurite_of_stem (a ++ String "-" b) = a.
Proof.
  unfold asurite_of_stem, all_chars.
  induction a as [|c a IH]; intro H; [reflexivity|].
  simpl in H. apply andb_prop in H as [Hc Ha].
  unfold not_dash in Hc. apply negb_true_iff in Hc.
  change (String c a ++ String "-" b) with (String c (a ++ String "-" b)).
  rewrite py_split_cons, Hc, IH by exact Ha. reflexivity.
Qed.

Lemma asurite_of_stem_nodash s :
  all_chars not_dash s = true -> asurite_of_stem s = s.
Proof.
  unfold asurite_of_stem, all_chars.
  induction s as [|c s IH]; intro H; [reflexivity|].
  simpl in H. apply andb_prop in H as [Hc Hs].
  unfold not_dash in Hc. apply negb_true_iff in Hc.
  rewrite py_split_cons, Hc, IH by exact Hs. reflexivity.
Qed.

(** C8: the submission identifier is the part of the file stem before the
    first ["-"], or the whole stem when it has no ["-"];
    ["abc123-final.zip"] gives ["abc123"] and ["nodash.zip"] gives
    ["nodash"]. *)
Theorem asurite_id_first_segment :
  (forall a b, all_chars not_dash a = true -> asurite_of_stem (a ++ String "-" b) = a) /\
  (forall s, all_chars not_dash s = true -> asurite_of_stem s = s) /\
  (forall zip_path, asurite_id zip_path = asurite_of_stem (path_stem zip_path)) /\
  asurite_id "abc123-final.zip" = "abc123" /\
  asurite_id "nodash.zip" = "nodash".
Proof.
  split; [exact asurite_of_stem_dash|].
  split; [exact asurite_of_stem_nodash|].
  split; [reflexivity|].
  split; reflexivity.
Qed.

Lemma asurite_id_first_segment_witness :
  asurite_of_stem ("abc123" ++ String "-" "final") = "abc123" /\
  asurite_of_stem "nodash" = "nodash".
Proof.
  destruct asurite_id_first_segment as [H1 [H2 _]].
  split; [apply H1|apply H2]; reflexivity.
Defined.

(* ------------------------------------------------------------------ *)
(** ** Lemmas on the processing loop *)

Lemma parse_llm_response_ok text st :
  exists score feedback,
    (0 <= score <= 10)%Q /\
    parse_llm_response text st =
    (Ok (score, feedback),
     mkState (st_fs st) (st_rows st)
       (st_log st ++ match parse_body text with
                     | Ok _ => []
                     | Raise e => ["Parse error: " ++ exn_message e]
                     end)).
Proof.
  rewrite parse_llm_response_unfold.
  destruct (parse_body text) as [[score feedback]|e] eqn:E.
  - exists score, feedback. split; [exact (parse_body_ok text _ E)|].
    rewrite app_nil_r. destruct st; reflexivity.
  - exists 5%Q, "Could not parse analysis results".
    split; [split; apply Qle_bool_imp_le; reflexivity|reflexivity].
Qed.

Lemma analyze_submission_ok generate path content reqs st :
  exists score feedback st',
    analyze_submission generate path content reqs st = (Ok (score, feedback), st') /\
    (0 <= score <= 10)%Q /\ st_rows st' = st_rows st /\ st_fs st' = st_fs st.
Proof.
  unfold analyze_submission, try_except, bind, ollama_generate.
  destruct (generate (build_prompt path content reqs)) as [r|] eqn:G.
  - cbv [ret print DEBUG_MODE].
    match goal with
    | |- context [parse_llm_response r ?s] =>
        destruct (parse_llm_response_ok r s) as [score [feedback [Hr E]]];
        rewrite E
    end. eexists _, _, _. split; [reflexivity|]. auto.
  - cbv [raise print ret]. exists 0%Q, "Analysis failed". eexists. split; [reflexivity|].
    split; [split; apply Qle_bool_imp_le; reflexivity|]. auto.
Qed.

Lemma process_file_step generate reqs asurite dir total file st :
  exists new st',
    process_file generate reqs asurite dir total file st = (Ok (last_total total new), st') /\
    st_rows st' = (st_rows st ++ new)%list /\ running_totals total new /\
    st_fs st' = st_fs st.
Proof.
  destruct file as [p n]. unfold process_file.
  destruct (eligible p n) eqn:El.
  2:{ exists [], st. rewrite app_nil_r. repeat split. }
  unfold try_except, bind, read_text.
  destruct n as [|[c|]]; [discriminate| |].
  - cbv [ret print].
    match goal with
    | |- context [analyze_submission generate ?a ?b ?c ?s] =>
        destruct (analyze_submission_ok generate a b c s)
          as [score [feedback [st1 [E [Hr [Hrows Hfs]]]]]];
        rewrite E
    end.
    cbv [write_row print ret].
    exists [mkRow asurite (relative_to p dir) score feedback (total + score)%Q].
    eexists. split; [reflexivity|]. simpl.
    rewrite Hrows, Hfs. repeat split; apply Hr.
  - cbv [raise print ret]. exists []. eexists. split; [reflexivity|].
    simpl. rewrite app_nil_r. repeat split.
Qed.

Lemma running_totals_app acc a b :
  running_totals acc a -> running_totals (last_total acc a) b ->
  running_totals acc (a ++ b) /\ last_total acc (a ++ b) = last_total (last_total acc a) b.
Proof.
  revert acc; induction a as [|r a IH]; intros acc Ha Hb; simpl in *; [auto|].
  destruct Ha as [H1 [H2 H3]].
  destruct (IH (row_total r) H3 Hb) as [H4 H5]. auto.
Qed.


Lemma process_files_run generate reqs asurite dir files total st :
  exists new st',
    process_files generate reqs asurite dir total files st = (Ok (last_total total new), st') /\
    st_rows st' = (st_rows st ++ new)%list /\ running_totals total new /\
    st_fs st' = st_fs st.
Proof.
  revert total st; induction files as [|f files IH]; intros total st.
  - exists [], st. rewrite app_nil_r. repeat split.
  - simpl. unfold bind.
    destruct (process_file_step generate reqs asurite dir total f st)
      as [new1 [st1 [E1 [R1 [T1 F1]]]]].
    rewrite E1.
    destruct (IH (last_total total new1) st1) as [new2 [st2 [E2 [R2 [T2 F2]]]]].
    rewrite E2.
    destruct (running_totals_app total new1 new2 T1 T2) as [T L].
    exists (new1 ++ new2)%list, st2. rewrite L.
    repeat split; [|exact T|congruence].
    rewrite R2, R1, app_assoc. reflexivity.
Qed.

Lemma process_archive_run generate rank refused reqs a st :
  exists new st' r,
    process_archive generate rank refused reqs a st = (r, st') /\
    st_rows st' = (st_rows st ++ new)%list /\ running_totals 0 new /\
    (forall members, zip_data a = ZipOk members ->
       r = Ok tt /\
       st_fs st' =
       rmtree_fs refused (extract_dir_of (asurite_id (zip_name a)))
         (extractall_fs (extract_dir_of (asurite_id (zip_name a))) members (st_fs st))) /\
    (forall e, r = Raise e ->
       new = [] /\ (zip_data a = ZipBad e \/ exists w, zip_data a = ZipExtractFails w e)).
Proof.
  unfold process_archive.
  destruct (zip_data a) as [members|e|written e] eqn:Z.
  - cbv [bind print extractall rglob ret].
    match goal with
    | |- context [process_files generate reqs ?x ?d ?t ?fs ?s] =>
        destruct (process_files_run generate reqs x d fs t s)
          as [new [st1 [E [R [T F]]]]];
        rewrite E
    end.
    cbv [rmtree]. exists new. eexists. exists (Ok tt).
    split; [reflexivity|]. cbn [st_rows st_fs st_log] in *. rewrite R.
    split; [reflexivity|]. split; [exact T|]. split; [|discriminate].
    intros m Hm. injection Hm as <-. split; [reflexivity|]. rewrite F. reflexivity.
  - cbv [bind print raise]. exists []. eexists. eexists.
    split; [reflexivity|]. cbn [st_rows]. rewrite app_nil_r.
    split; [reflexivity|]. split; [exact I|]. split; [discriminate|].
    intros e' He. injection He as <-. split; [reflexivity|left; reflexivity].
  - cbv [bind print extractall raise]. exists []. eexists. eexists.
    split; [reflexivity|]. cbn [st_rows]. rewrite app_nil_r.
    split; [reflexivity|]. split; [exact I|]. split; [discriminate|].
    intros e' He. injection He as <-. split; [reflexivity|right; eexists; reflexivity].
Qed.

Lemma process_archives_ok generate rank refused reqs archives st :
  Forall (fun a => exists m, zip_data a = ZipOk m) archives ->
  exists st', process_archives generate rank refused reqs archives st = (Ok tt, st').
Proof.
  revert st; induction archives as [|a rest IH]; intros st H.
  - eexists. reflexivity.
  - inversion H as [|? ? [m Hm] Hrest]; subst.
    simpl. unfold bind.
    destruct (process_archive_run generate rank refused reqs a st)
      as [new [st1 [r [E [_ [_ [Hok _]]]]]]].
    rewrite E. destruct (Hok m Hm) as [-> _]. apply IH, Hrest.
Qed.


Lemma prefix_app_iff s t : String.prefix s t = true <-> exists u, t = s ++ u.
Proof.
  revert t; induction s as [|a s IH]; intro t.
  - split; [intros _; exists t; reflexivity|intros _; destruct t; reflexivity].
  - destruct t as [|b t]; simpl.
    + split; [discriminate|intros [u Hu]; discriminate].
    + destruct (ascii_dec a b) as [<-|Hab].
      * rewrite IH. split; intros [u Hu]; exists u; [congruence|injection Hu; auto].
      * split; [discriminate|intros [u Hu]; injection Hu; congruence].
Qed.

Lemma rmtree_fs_under refused d fs p n :
  is_dir d fs = true -> is_under d p = true ->
  (In (p, n) (rmtree_fs refused d fs) <->
   In (p, n) fs /\ exists q m, In (q, m) fs /\ is_under p q = true /\ refused q = true).
Proof.
  intros Hd Hp. unfold rmtree_fs. rewrite Hd, filter_In. cbn [fst]. rewrite Hp.
  cbn [negb orb]. unfold stuck. rewrite existsb_exists. split.
  - intros [H1 [[q m] [Hq E]]]. apply andb_prop in E as [E1 E2].
    split; [exact H1|]. exists q, m. auto.
  - intros [H1 [q [m [H2 [H3 H4]]]]]. split; [exact H1|].
    exists (q, m). split; [exact H2|]. cbn [fst]. rewrite H3, H4. reflexivity.
Qed.


(* ------------------------------------------------------------------ *)
(** ** Claims about process_submissions *)

(** C2 (counterexample): with a corrupt first archive ["bad.zip"] and a
    good second one, the [BadZipFile] exception leaves
    [process_submissions]: nothing is logged about it, and the second
    archive is never processed (no row for ["abc123"]). *)
Lemma process_submissions_bad_zip_aborts :
  process_submissions (fixed_reply ("Score|8|" ++ nl_s ++ "Feedback|ok|"))
    (fun _ _ => 0%Z) (fun _ => false) "rubric.pdf" (Ok ["req"]) None
    [mkArchive "bad.zip" (ZipBad (BadZipFile "bad.zip"));
     mkArchive "abc123-final.zip" (ZipOk [("main.py", NFile (Some "print(1)"))])]
    empty_state
  = (Raise (BadZipFile "bad.zip"), mkState [] [] ["Processing submission: bad"]).
Proof. reflexivity. Qed.

(** C2 (as amended): when opening or extracting an archive raises, the
    exception is not caught in [process_submissions]: the loop over the
    archives ends with that exception and the remaining archives are not
    processed. *)
Theorem process_archives_extraction_error_propagates :
  forall generate rank refused reqs a rest st e,
    (zip_data a = ZipBad e \/ exists written, zip_data a = ZipExtractFails written e) ->
    process_archives generate rank refused reqs (a :: rest) st
      = process_archive generate rank refused reqs a st /\
    fst (process_archive generate rank refused reqs a st) = Raise e.
Proof.
  intros generate rank refused reqs a rest st e H.
  destruct H as [H | [w H]];
    simpl; unfold process_archive; rewrite H; split; reflexivity.
Qed.

Lemma process_archives_extraction_error_propagates_witness :
  process_archives (fixed_reply "Score|8|") (fun _ _ => 0%Z) (fun _ => false) "req"
    [mkArchive "bad.zip" (ZipBad (BadZipFile "bad.zip")); mkArchive "ok.zip" (ZipOk [])]
    empty_state
  = process_archive (fixed_reply "Score|8|") (fun _ _ => 0%Z) (fun _ => false) "req"
      (mkArchive "bad.zip" (ZipBad (BadZipFile "bad.zip"))) empty_state /\
  fst (process_archive (fixed_reply "Score|8|") (fun _ _ => 0%Z) (fun _ => false) "req"
         (mkArchive "bad.zip" (ZipBad (BadZipFile "bad.zip"))) empty_state)
  = Raise (BadZipFile "bad.zip").
Proof.
  apply (process_archives_extraction_error_propagates
           (fixed_reply "Score|8|") (fun _ _ => 0%Z) (fun _ => false) "req"
           (mkArchive "bad.zip" (ZipBad (BadZipFile "bad.zip")))).
  left. reflexivity.
Defined.



(** C6 (counterexample): when the operating system refuses to delete
    the extracted [main.py], [shutil.rmtree(..., ignore_errors=True)]
    leaves it and its directory [temp/abc123] on disk, and the
    processing still returns normally. *)
Lemma process_archive_refused_file_stays :
  let run := process_archive (fun _ => None) (fun _ _ => 0%Z)
               (fun p => String.eqb p "temp/abc123/main.py") "req"
               (mkArchive "abc123-final.zip" (ZipOk [("main.py", NFile (Some "print(1)"))]))
               empty_state in
  fst run = Ok tt /\
  In ("temp/abc123", NDir) (st_fs (snd run)) /\
  In ("temp/abc123/main.py", NFile (Some "print(1)")) (st_fs (snd run)).
Proof.
  vm_compute. split; [reflexivity|]. split; [right; left; reflexivity|].
  right; right; left; reflexivity.
Qed.

(** C6 (as amended): for an archive that extracts, with an identifier
    other than ['..'], the processing returns normally whatever its files
    and whatever the inference endpoint does.  If [temp/<id>] is a
    directory after the extraction, a path under it stays exactly when a
    path whose deletion the system refuses lies at or below it, the
    refusals being ignored; with no refusal nothing of [temp/<id>] is left.
    If [temp/<id>] is not a directory then (an archive without members
    creates nothing), [rmtree] changes nothing. *)
Theorem process_archive_removes_extract_dir :
  forall generate rank refused reqs a members st,
    zip_data a = ZipOk members ->
    asurite_id (zip_name a) <> ".." ->
    let d := extract_dir_of (asurite_id (zip_name a)) in
    let fs1 := extractall_fs d members (st_fs st) in
    exists st',
      process_archive generate rank refused reqs a st = (Ok tt, st') /\
      (is_dir d fs1 = true ->
         (forall p n, is_under d p = true ->
            (In (p, n) (st_fs st') <->
             In (p, n) fs1 /\
             exists q m, In (q, m) fs1 /\ is_under p q = true /\ refused q = true)) /\
         ((forall q m, In (q, m) fs1 -> is_under d q = true -> refused q = false) ->
            forall p n, In (p, n) (st_fs st') -> is_under d p = false)) /\
      (is_dir d fs1 = false -> st_fs st' = fs1).
Proof.
  intros generate rank refused reqs a members st H _ d fs1.
  destruct (process_archive_run generate rank refused reqs a st)
    as [new [st' [r [E [_ [_ [Hok _]]]]]]].
  destruct (Hok members H) as [-> Hfs].
  exists st'. split; [exact E|]. fold d fs1 in Hfs. rewrite Hfs. split.
  - intro Hd. split.
    + intros p n Hp. apply rmtree_fs_under; assumption.
    + intros Hnone p n Hin.
      destruct (is_under d p) eqn:Hp; [|reflexivity].
      apply (rmtree_fs_under refused d fs1 p n Hd Hp) in Hin
        as [_ [q [m [Hq [Hpq Hr]]]]].
      assert (Hdq : is_under d q = true).
      { unfold is_under in *.
        apply orb_true_iff in Hp. apply orb_true_iff in Hpq.
        destruct Hp as [Hp|Hp]; destruct Hpq as [Hpq|Hpq].
        - apply String.eqb_eq in Hp, Hpq. subst. rewrite String.eqb_refl. reflexivity.
        - apply String.eqb_eq in Hp. subst. rewrite Hpq, orb_true_r. reflexivity.
        - apply String.eqb_eq in Hpq. subst. rewrite Hp, orb_true_r. reflexivity.
        - apply orb_true_iff. right.
          apply prefix_app_iff in Hp as [u Hu].
          apply prefix_app_iff in Hpq as [v Hv]. subst.
          apply prefix_app_iff. exists (u ++ "/" ++ v).
          rewrite !string_app_assoc. reflexivity. }
      rewrite (Hnone q m Hq Hdq) in Hr. discriminate.
  - intro Hd. unfold rmtree_fs. rewrite Hd. reflexivity.
Qed.

Lemma process_archive_removes_extract_dir_witness :
  exists st',
    process_archive (fun _ => None) (fun _ _ => 0%Z) (fun _ => false) "req"
      (mkArchive "abc123-final.zip"
         (ZipOk [("main.py", NFile (Some "print(1)")); ("util.py", NFile None)]))
      empty_state = (Ok tt, st') /\
    (is_dir "temp/abc123"
       (extractall_fs "temp/abc123"
          [("main.py", NFile (Some "print(1)")); ("util.py", NFile None)] []) = true ->
     (forall p n, is_under "temp/abc123" p = true ->
        (In (p, n) (st_fs st') <->
         In (p, n) (extractall_fs "temp/abc123"
                      [("main.py", NFile (Some "print(1)")); ("util.py", NFile None)] []) /\
         exists q m, In (q, m) (extractall_fs "temp/abc123"
                      [("main.py", NFile (Some "print(1)")); ("util.py", NFile None)] []) /\
                     is_under p q = true /\ false = true)) /\
     ((forall q m, In (q, m) (extractall_fs "temp/abc123"
                      [("main.py", NFile (Some "print(1)")); ("util.py", NFile None)] []) ->
                   is_under "temp/abc123" q = true -> false = false) ->
      forall p n, In (p, n) (st_fs st') -> is_under "temp/abc123" p = false)) /\
    (is_dir "temp/abc123"
       (extractall_fs "temp/abc123"
          [("main.py", NFile (Some "print(1)")); ("util.py", NFile None)] []) = false ->
     st_fs st' = extractall_fs "temp/abc123"
                   [("main.py", NFile (Some "print(1)")); ("util.py", NFile None)] []).
Proof.
  apply (process_archive_removes_extract_dir (fun _ => None) (fun _ _ => 0%Z) (fun _ => false)
           "req"
           (mkArchive "abc123-final.zip"
              (ZipOk [("main.py", NFile (Some "print(1)")); ("util.py", NFile None)]))
           [("main.py", NFile (Some "print(1)")); ("util.py", NFile None)] empty_state).
  - reflexivity.
  - discriminate.
Defined.


(* ------------------------------------------------------------------ *)
(** ** Further properties of the parser *)

Lemma forallb_drop_spaces p l :
  forallb p l = true -> forallb p (drop_spaces l) = true.
Proof.
  induction l as [|c l IH]; simpl; [auto|].
  intro H. apply andb_prop in H as [Hc Hl].
  destruct (is_py_space c); [auto|simpl; rewrite Hc, Hl; reflexivity].
Qed.

Lemma forallb_rev {A} (p : A -> bool) l :
  forallb p (rev l) = forallb p l.
Proof.
  induction l as [|x l IH]; simpl; [reflexivity|].
  rewrite forallb_app, IH. simpl. rewrite andb_true_r, andb_comm. reflexivity.
Qed.

Lemma py_strip_chars p s :
  all_chars p s = true -> all_chars p (py_strip s) = true.
Proof.
  unfold all_chars, py_strip. intro H.
  rewrite list_ascii_of_string_of_list_ascii, forallb_rev.
  apply forallb_drop_spaces. rewrite forallb_rev.
  apply forallb_drop_spaces, H.
Qed.

Lemma feedback_group_chars s g :
  feedback_group s = Some g -> all_chars no_pipe_nl g = true.
Proof.
  revert g; induction s as [|c s IH]; intros g H; simpl in H.
  - injection H as <-. reflexivity.
  - destruct (Ascii.eqb c "|"%char) eqn:E1; [injection H as <-; reflexivity|].
    destruct (Ascii.eqb c nl) eqn:E2.
    + destruct s; [injection H as <-; reflexivity|discriminate].
    + destruct (feedback_group s) as [g'|] eqn:E; [|discriminate].
      simpl in H. injection H as <-.
      unfold all_chars. simpl. unfold no_pipe_nl. rewrite E1, E2.
      exact (IH g' eq_refl).
Qed.

Lemma feedback_search_chars s g :
  feedback_search s = Some g -> all_chars no_pipe_nl g = true.
Proof.
  induction s as [|c s IH]; intro H; [discriminate|].
  cbn [feedback_search] in H.
  destruct (strip_prefix "Feedback|" (String c s)) as [rest|].
  - destruct (feedback_group rest) as [g'|] eqn:E.
    + injection H as <-. exact (feedback_group_chars rest g' E).
    + auto.
  - auto.
Qed.

Lemma parse_llm_response_feedback_chars_aux text st :
  exists score feedback st',
    parse_llm_response text st = (Ok (score, feedback), st') /\
    (0 <= score <= 10)%Q /\ all_chars no_pipe_nl feedback = true /\
    st_rows st' = st_rows st /\ st_fs st' = st_fs st.
Proof.
  rewrite parse_llm_response_unfold.
  destruct (parse_body text) as [[score feedback]|e] eqn:E.
  - exists score, feedback, st. split; [reflexivity|].
    split; [exact (parse_body_ok text _ E)|].
    split; [|split; reflexivity].
    unfold parse_body in E.
    destruct (match score_search text with Some g => py_float g | None => Ok 5%Q end);
      [|discriminate].
    injection E as _ <-.
    destruct (feedback_search text) as [g|] eqn:F; [|reflexivity].
    apply py_strip_chars, (feedback_search_chars text g F).
  - eexists _, _, _. split; [reflexivity|].
    split; [split; apply Qle_bool_imp_le; reflexivity|].
    repeat split.
Qed.

(** The feedback returned by [parse_llm_response] never contains a ['|']
    or a newline: the regex group stops at the first ['|'] and cannot
    cross a newline, [strip()] only removes characters, and the two
    placeholders contain neither. *)
Theorem parse_llm_response_feedback_single_line :
  forall text st, exists score feedback st',
    parse_llm_response text st = (Ok (score, feedback), st') /\
    all_chars no_pipe_nl feedback = true.
Proof.
  intros text st.
  destruct (parse_llm_response_feedback_chars_aux text st)
    as [score [feedback [st' [E [_ [H _]]]]]].
  exists score, feedback, st'. auto.
Qed.

(* ------------------------------------------------------------------ *)
(** ** Further properties of the identifier, the loader and the prompt *)

(** The submission identifier is a prefix of the file stem without any
    ["-"], and what follows it in the stem is empty or starts with ["-"];
    so the working directory [temp/<id>] never contains a ["-"] from the
    name. *)
Theorem asurite_of_stem_dash_free_prefix :
  forall stem, exists rest,
    stem = asurite_of_stem stem ++ rest /\
    all_chars not_dash (asurite_of_stem stem) = true /\
    (rest = EmptyString \/ exists r, rest = String "-" r).
Proof.
  intro stem. unfold asurite_of_stem.
  induction stem as [|c stem IH].
  - exists EmptyString. simpl. auto.
  - rewrite py_split_cons.
    destruct (Ascii.eqb c "-"%char) eqn:E.
    + apply Ascii.eqb_eq in E. subst c.
      exists (String "-" stem). simpl. split; [reflexivity|]. split; [reflexivity|].
      right. eexists. reflexivity.
    + destruct IH as [rest [H1 [H2 H3]]].
      exists rest. simpl. rewrite <- H1. split; [reflexivity|].
      split; [|exact H3].
      unfold all_chars in *. simpl. rewrite H2. unfold not_dash. rewrite E. reflexivity.
Qed.

Lemma join_app_length_ge l r :
  String.length (py_join_nl l) <= String.length (py_join_nl (l ++ r)).
Proof.
  unfold py_join_nl.
  induction l as [|x l IH]; [simpl; lia|].
  destruct l as [|y l].
  - destruct r as [|z r]; [simpl; lia|].
    change ([x] ++ z :: r)%list with (x :: z :: r).
    rewrite concat_cons2, !string_length_app. simpl. lia.
  - change ((x :: y :: l) ++ r)%list with (x :: y :: (l ++ r))%list.
    change ((y :: l) ++ r)%list with (y :: (l ++ r))%list in IH.
    rewrite !concat_cons2, !string_length_app. lia.
Qed.

Lemma join_snoc_length_ge l p :
  String.length (py_join_nl l) + String.length p <= String.length (py_join_nl (l ++ [p])).
Proof.
  unfold py_join_nl.
  induction l as [|x l IH]; [simpl; lia|].
  destruct l as [|y l].
  - change ([x] ++ [p])%list with [x; p].
    change (String.concat nl_s [x; p]) with (x ++ nl_s ++ p).
    change (String.concat nl_s [x]) with x.
    rewrite !string_length_app. lia.
  - change ((x :: y :: l) ++ [p])%list with (x :: y :: (l ++ [p]))%list.
    change ((y :: l) ++ [p])%list with (y :: (l ++ [p]))%list in IH.
    rewrite !concat_cons2, !string_length_app. lia.
Qed.

Lemma extract_loop_all_fit full pages :
  String.length (py_join_nl (full ++ pages)) < 2500 ->
  extract_loop full pages = (full ++ pages)%list.
Proof.
  revert full; induction pages as [|p ps IH]; intros full H.
  - simpl. rewrite app_nil_r. reflexivity.
  - simpl.
    replace (full ++ p :: ps)%list with ((full ++ [p]) ++ ps)%list in H
      by (rewrite <- app_assoc; reflexivity).
    pose proof (join_app_length_ge (full ++ [p]) ps) as H1.
    pose proof (join_snoc_length_ge full p) as H2.
    replace (String.length (py_join_nl full) + String.length p <? 2500)%nat with true
      by (symmetry; apply Nat.ltb_lt; lia).
    rewrite IH by exact H. rewrite <- app_assoc. reflexivity.
Qed.

(** When the newline-joined text of all the pages is under 2500
    characters, [extract_requirements] keeps every page. *)
Theorem extract_requirements_all_pages_fit :
  forall pages,
    String.length (py_join_nl pages) < 2500 ->
    extract_requirements pages = py_join_nl pages.
Proof.
  intros pages H. unfold extract_requirements.
  rewrite extract_loop_all_fit by exact H. reflexivity.
Qed.

Lemma extract_requirements_all_pages_fit_witness :
  extract_requirements ["Phase 2"; "Rubric"] = py_join_nl ["Phase 2"; "Rubric"].
Proof. apply extract_requirements_all_pages_fit. vm_compute. lia. Defined.

Lemma extract_loop_all_long pages :
  Forall (fun p => 2500 <= String.length p) pages -> extract_loop [] pages = [].
Proof.
  induction pages as [|p ps IH]; intro H; [reflexivity|].
  inversion H as [|? ? Hp Hps]; subst. simpl.
  replace (String.length p <? 2500)%nat with false
    by (symmetry; apply Nat.ltb_ge; exact Hp).
  apply IH, Hps.
Qed.

(** A page of 2500 characters or more is never kept, even as the first
    page: when every page is that long the requirements text is empty. *)
Theorem extract_requirements_long_pages_empty :
  forall pages,
    Forall (fun p => 2500 <= String.length p) pages ->
    extract_requirements pages = EmptyString.
Proof.
  intros pages H. unfold extract_requirements.
  rewrite extract_loop_all_long by exact H. reflexivity.
Qed.

Lemma extract_requirements_long_pages_empty_witness :
  extract_requirements [replicate_char 2600 "x"%char] = EmptyString.
Proof.
  apply extract_requirements_long_pages_empty.
  constructor; [vm_compute; lia|constructor].
Defined.

Lemma substring_0_app n c e :
  n <= String.length c -> String.substring 0 n (c ++ e) = String.substring 0 n c.
Proof.
  revert n; induction c as [|x c IH]; intros n H; simpl in *.
  - assert (n = 0) by lia. subst. destruct e; reflexivity.
  - destruct n; [reflexivity|]. f_equal. apply IH. lia.
Qed.

(** Only the first 2500 characters of a file reach the model: appending
    anything to content that is already 2500 characters or longer does
    not change what [analyze_submission] does. *)
Theorem analyze_submission_ignores_tail :
  forall generate path content extra reqs st,
    2500 <= String.length content ->
    analyze_submission generate path (content ++ extra) reqs st =
    analyze_submission generate path content reqs st.
Proof.
  intros generate path content extra reqs st H.
  unfold analyze_submission, build_prompt.
  rewrite substring_0_app by exact H. reflexivity.
Qed.

Lemma analyze_submission_ignores_tail_witness :
  analyze_submission (fun _ => None) "main.py"
    (replicate_char 2500 "x"%char ++ "tail") "req" empty_state =
  analyze_submission (fun _ => None) "main.py"
    (replicate_char 2500 "x"%char) "req" empty_state.
Proof. apply analyze_submission_ignores_tail. vm_compute. lia. Defined.

(* ------------------------------------------------------------------ *)
(** ** Further properties of the processing loop *)










(* ------------------------------------------------------------------ *)
(** ** Paths and the file system *)

Lemma string_app_empty_r s : s ++ "" = s.
Proof. induction s as [|c s IH]; simpl; [reflexivity|]. rewrite IH. reflexivity. Qed.







Lemma slash_prefixes_app acc s t :
  slash_prefixes acc (s ++ t) = (slash_prefixes acc s ++ slash_prefixes (acc ++ s) t)%list.
Proof.
  revert acc; induction s as [|c s IH]; intro acc.
  - cbn. rewrite string_app_empty_r. reflexivity.
  - change (String c s ++ t) with (String c (s ++ t)). cbn [slash_prefixes].
    replace (acc ++ String c s) with ((acc ++ String c "") ++ s)
      by (rewrite string_app_assoc; reflexivity).
    destruct (Ascii.eqb c "/"%char); rewrite IH; reflexivity.
Qed.



Lemma slash_prefixes_member d x :
  slash_prefixes "" (d ++ "/" ++ x) =
  (slash_prefixes "" d ++ d :: slash_prefixes (d ++ "/") x)%list.
Proof.
  rewrite slash_prefixes_app. reflexivity.
Qed.




Lemma add_path_in q m fs p n :
  In (p, n) (add_path q m fs) <-> (In (p, n) fs /\ p <> q) \/ (p, n) = (q, m).
Proof.
  unfold add_path. rewrite in_app_iff, filter_In. cbn [fst In].
  split.
  - intros [[H1 H2] | [H | []]].
    + left. split; [exact H1|]. intro E. subst. rewrite String.eqb_refl in H2. discriminate.
    + right. congruence.
  - intros [[H1 H2] | H].
    + left. split; [exact H1|]. apply String.eqb_neq in H2. rewrite H2. reflexivity.
    + right. left. congruence.
Qed.






Lemma path_exists_in p fs : path_exists p fs = true <-> exists n, In (p, n) fs.
Proof.
  unfold path_exists. rewrite existsb_exists. split.
  - intros [[q n] [H E]]. apply String.eqb_eq in E. cbn in E. subst. exists n. exact H.
  - intros [n H]. exists (p, n). split; [exact H|apply String.eqb_refl].
Qed.

Lemma path_exists_mkdir_missing p q fs :
  path_exists p fs = true \/ p = q -> path_exists p (mkdir_missing q fs) = true.
Proof.
  intro H. unfold mkdir_missing. destruct (path_exists q fs) eqn:Eq.
  - destruct H as [H | ->]; exact H || exact Eq.
  - apply path_exists_in. destruct H as [H | ->].
    + apply path_exists_in in H as [n Hn]. exists n. apply in_app_iff. left. exact Hn.
    + exists NDir. apply in_app_iff. right. left. reflexivity.
Qed.

Lemma path_exists_add_path p q m fs :
  path_exists p fs = true -> path_exists p (add_path q m fs) = true.
Proof.
  intro H. apply path_exists_in. apply path_exists_in in H as [n Hn].
  destruct (String.eqb p q) eqn:E.
  - apply String.eqb_eq in E. subst. exists m. apply add_path_in. right. reflexivity.
  - apply String.eqb_neq in E. exists n. apply add_path_in. left. auto.
Qed.

Lemma path_exists_fold_mkdir p l fs :
  path_exists p fs = true \/ In p l ->
  path_exists p (fold_left (fun acc q => mkdir_missing q acc) l fs) = true.
Proof.
  revert fs; induction l as [|q l IH]; intros fs H.
  - destruct H as [H|[]]. exact H.
  - cbn [fold_left]. apply IH.
    destruct H as [H | [-> | H]].
    + left. apply path_exists_mkdir_missing. left. exact H.
    + left. apply path_exists_mkdir_missing. right. reflexivity.
    + right. exact H.
Qed.

Lemma path_exists_extract_member p d fs m :
  path_exists p fs = true \/ p = d -> path_exists p (extract_member d fs m) = true.
Proof.
  intro H. unfold extract_member.
  assert (Hf : path_exists p (fold_left (fun acc q => mkdir_missing q acc)
                                (slash_prefixes "" (d ++ "/" ++ fst m)) fs) = true).
  { apply path_exists_fold_mkdir. destruct H as [H | ->]; [left; exact H|].
    right. rewrite slash_prefixes_member. apply in_app_iff. right. left. reflexivity. }
  destruct (snd m).
  - apply path_exists_mkdir_missing. left. exact Hf.
  - apply path_exists_add_path. exact Hf.
Qed.

(** When the extraction raises after it has written at least one member,
    the exception leaves [process_archive] before the cleanup: the
    working directory [temp/<id>] stays on disk and no report row is
    written. *)
Theorem process_archive_extract_failure_leaves_dir :
  forall generate rank refused reqs a written e st,
    zip_data a = ZipExtractFails written e ->
    written <> [] ->
    exists st',
      process_archive generate rank refused reqs a st = (Raise e, st') /\
      path_exists (extract_dir_of (asurite_id (zip_name a))) (st_fs st') = true /\
      st_rows st' = st_rows st.
Proof.
  intros generate rank refused reqs a written e st H Hw.
  unfold process_archive. rewrite H.
  cbv [bind print extractall raise]. eexists. split; [reflexivity|].
  split; [|reflexivity]. cbn [st_fs]. unfold extractall_fs. clear H.
  set (d := extract_dir_of (asurite_id (zip_name a))).
  destruct written as [|m written]; [contradiction|]. cbn [fold_left].
  assert (H0 : path_exists d (extract_member d (st_fs st) m) = true)
    by (apply path_exists_extract_member; right; reflexivity).
  generalize dependent (extract_member d (st_fs st) m). clear Hw.
  induction written as [|m' written IH]; intros fs Hfs; [exact Hfs|].
  cbn [fold_left]. apply IH. apply path_exists_extract_member. left. exact Hfs.
Qed.

Lemma process_archive_extract_failure_leaves_dir_witness :
  exists st',
    process_archive (fun _ => None) (fun _ _ => 0%Z) (fun _ => false) "req"
      (mkArchive "abc123-final.zip"
         (ZipExtractFails [("main.py", NFile (Some "x"))]
            (OtherError "RuntimeError" "File main.py is encrypted")))
      empty_state
    = (Raise (OtherError "RuntimeError" "File main.py is encrypted"), st') /\
    path_exists "temp/abc123" (st_fs st') = true /\ st_rows st' = [].
Proof.
  apply (process_archive_extract_failure_leaves_dir (fun _ => None) (fun _ _ => 0%Z)
           (fun _ => false) "req"
           (mkArchive "abc123-final.zip"
              (ZipExtractFails [("main.py", NFile (Some "x"))]
                 (OtherError "RuntimeError" "File main.py is encrypted")))
           [("main.py", NFile (Some "x"))]).
  - reflexivity.
  - discriminate.
Defined.

(* ------------------------------------------------------------------ *)
(** ** Properties of the script run *)

Lemma existsb_model ms :
  existsb (String.eqb "codellama:7b") ms = true <-> In "codellama:7b" ms.
Proof.
  rewrite existsb_exists. split.
  - intros [x [Hx E]]. apply String.eqb_eq in E. subst x. exact Hx.
  - intro H. exists "codellama:7b". split; [exact H|apply String.eqb_refl].
Qed.

(** The three early exits of the script (the inference backend is
    unreachable, the model codellama:7b is not installed, opening the
    rubric PDF raises the built-in [FileNotFoundError]) end the run with
    [exit(1)] before grades.csv is opened: the report and the disk are
    left as they were. *)
Theorem main_early_exit_keeps_report :
  forall generate rank refused models pdf_path pdf csv_open archives st,
    (models = Raise ConnectionError \/
     (exists ms, models = Ok ms /\ ~ In "codellama:7b" ms) \/
     (exists ms p, models = Ok ms /\ In "codellama:7b" ms /\
                   pdf = Raise (FileNotFoundError p))) ->
    exists st',
      main generate rank refused models pdf_path pdf csv_open archives st = (Exited 1, st') /\
      st_rows st' = st_rows st /\ st_fs st' = st_fs st.
Proof.
  intros generate rank refused models pdf_path pdf csv_open archives st H.
  unfold main, main_body, of_outcome.
  destruct H as [-> | [[ms [-> Hn]] | [ms [p [-> [Hi ->]]]]]].
  - eexists. split; [reflexivity|]. split; reflexivity.
  - destruct (existsb (String.eqb "codellama:7b") ms) eqn:E.
    + apply existsb_model in E. contradiction.
    + cbv [bind print]. rewrite E.
      eexists. split; [reflexivity|]. split; reflexivity.
  - apply existsb_model in Hi. cbv [bind print]. rewrite Hi.
    eexists. split; [reflexivity|]. split; reflexivity.
Qed.

Lemma main_early_exit_keeps_report_witness :
  exists st',
    main (fun _ => None) (fun _ _ => 0%Z) (fun _ => false) (Ok ["llama3:8b"])
      "/tmp/rubric.pdf" (Ok ["req"]) None []
      (mkState [] [mkRow "old" "a.py" 1 "x" 1] [])
      = (Exited 1, st') /\
    st_rows st' = [mkRow "old" "a.py" 1 "x" 1] /\ st_fs st' = [].
Proof.
  apply (main_early_exit_keeps_report (fun _ => None) (fun _ _ => 0%Z) (fun _ => false)
           (Ok ["llama3:8b"])).
  right. left. exists ["llama3:8b"]. split; [reflexivity|].
  simpl. intros [H|[]]. discriminate.
Defined.

(** An exception of the PDF reader other than the built-in
    [FileNotFoundError] (PyMuPDF's own [FileNotFoundError], a
    [RuntimeError], raised for a missing file or a damaged PDF) is not
    caught: the run ends with it before grades.csv is opened, and the
    report and the disk are left as they were. *)
Theorem main_pdf_error_uncaught :
  forall generate rank refused ms pdf_path e csv_open archives st,
    In "codellama:7b" ms ->
    (forall p, e <> FileNotFoundError p) ->
    e <> ConnectionError -> (forall c, e <> SystemExit c) ->
    exists st',
      main generate rank refused (Ok ms) pdf_path (Raise e) csv_open archives st
        = (Uncaught e, st') /\
      st_rows st' = st_rows st /\ st_fs st' = st_fs st.
Proof.
  intros generate rank refused ms pdf_path e csv_open archives st Hm Hf Hc Hx.
  apply existsb_model in Hm.
  unfold main, main_body, of_outcome, process_submissions, extract_requirements_file.
  cbv [bind print]. rewrite Hm. cbn [negb].
  destruct e; try congruence;
    try (exfalso; eapply Hf; reflexivity); try (exfalso; eapply Hx; reflexivity);
    eexists; (split; [reflexivity|]); split; reflexivity.
Qed.

Lemma main_pdf_error_uncaught_witness :
  exists st',
    main (fun _ => None) (fun _ _ => 0%Z) (fun _ => false) (Ok ["codellama:7b"])
      "/tmp/rubric.pdf" (Raise (OtherError "FileNotFoundError" "no such file: '/tmp/rubric.pdf'"))
      None [] (mkState [] [mkRow "old" "a.py" 1 "x" 1] [])
      = (Uncaught (OtherError "FileNotFoundError" "no such file: '/tmp/rubric.pdf'"), st') /\
    st_rows st' = [mkRow "old" "a.py" 1 "x" 1] /\ st_fs st' = [].
Proof.
  apply (main_pdf_error_uncaught (fun _ => None) (fun _ _ => 0%Z) (fun _ => false)
           ["codellama:7b"]).
  - left. reflexivity.
  - intro p. discriminate.
  - discriminate.
  - intro c. discriminate.
Defined.

(** When [open(OUTPUT_CSV, 'w')] raises (a read-only or locked
    grades.csv), the exception ends the run uncaught before any archive
    is processed, and the previous report is neither emptied nor
    changed. *)
Theorem main_csv_open_error_uncaught :
  forall generate rank refused ms pdf_path pages e archives st,
    In "codellama:7b" ms ->
    e <> ConnectionError -> (forall c, e <> SystemExit c) ->
    exists st',
      main generate rank refused (Ok ms) pdf_path (Ok pages) (Some e) archives st
        = (Uncaught e, st') /\
      st_rows st' = st_rows st /\ st_fs st' = st_fs st.
Proof.
  intros generate rank refused ms pdf_path pages e archives st Hm Hc Hx.
  apply existsb_model in Hm.
  unfold main, main_body, of_outcome, process_submissions, extract_requirements_file.
  cbv [bind print ret]. rewrite Hm. cbn [negb].
  destruct e; try congruence; try (exfalso; eapply Hx; reflexivity);
    eexists; (split; [reflexivity|]); split; reflexivity.
Qed.

Lemma main_csv_open_error_uncaught_witness :
  exists st',
    main (fun _ => None) (fun _ _ => 0%Z) (fun _ => false) (Ok ["codellama:7b"])
      "/tmp/rubric.pdf" (Ok ["req"])
      (Some (OtherError "PermissionError" "[Errno 13] Permission denied: 'grades.csv'"))
      [mkArchive "abc123-final.zip" (ZipOk [("main.py", NFile (Some "x"))])]
      (mkState [] [mkRow "old" "a.py" 1 "x" 1] [])
      = (Uncaught (OtherError "PermissionError" "[Errno 13] Permission denied: 'grades.csv'"),
         st') /\
    st_rows st' = [mkRow "old" "a.py" 1 "x" 1] /\ st_fs st' = [].
Proof.
  apply (main_csv_open_error_uncaught (fun _ => None) (fun _ _ => 0%Z) (fun _ => false)
           ["codellama:7b"]).
  - left. reflexivity.
  - discriminate.
  - intro c. discriminate.
Defined.

(** With the backend reachable, the model installed, the PDF read and
    grades.csv opened, the run completes whenever every archive opens
    and extracts, whatever the files and whatever the inference endpoint
    answers or raises. *)
Theorem main_completes :
  forall generate rank refused ms pdf_path pages archives st,
    In "codellama:7b" ms ->
    Forall (fun a => exists m, zip_data a = ZipOk m) archives ->
    exists st',
      main generate rank refused (Ok ms) pdf_path (Ok pages) None archives st
        = (Completed, st').
Proof.
  intros generate rank refused ms pdf_path pages archives st Hm Ha.
  apply existsb_model in Hm.
  unfold main, main_body, of_outcome, process_submissions, extract_requirements_file.
  cbv [bind print ret]. rewrite Hm. cbn [negb].
  match goal with
  | |- context [process_archives ?g ?k ?f ?q archives ?s] =>
      destruct (process_archives_ok g k f q archives s Ha) as [st' E]; rewrite E
  end.
  eexists. reflexivity.
Qed.

Lemma main_completes_witness :
  exists st',
    main (fun _ => None) (fun _ _ => 0%Z) (fun _ => false) (Ok ["codellama:7b"])
      "/tmp/rubric.pdf" (Ok ["req"]) None
      [mkArchive "abc123-final.zip" (ZipOk [("main.py", NFile None)])] empty_state
      = (Completed, st').
Proof.
  apply main_completes; [left; reflexivity|].
  constructor; [eexists; reflexivity|constructor].
Defined.

Lemma process_archives_first_bad generate rank refused reqs pre a post e st :
  Forall (fun a => exists m, zip_data a = ZipOk m) pre ->
  (zip_data a = ZipBad e \/ exists w, zip_data a = ZipExtractFails w e) ->
  exists st',
    process_archives generate rank refused reqs (pre ++ a :: post) st = (Raise e, st').
Proof.
  intros Hpre Ha. revert st; induction pre as [|b pre IH]; intro st.
  - simpl. unfold bind, process_archive.
    destruct Ha as [H | [w H]]; rewrite H; eexists; reflexivity.
  - inversion Hpre as [|? ? [m Hm] Hrest]; subst.
    simpl. unfold bind.
    destruct (process_archive_run generate rank refused reqs b st)
      as [new [st1 [r [E [_ [_ [Hok _]]]]]]].
    rewrite E. destruct (Hok m Hm) as [-> _]. apply IH, Hrest.
Qed.

(** With the backend reachable, the model installed, the PDF read and
    grades.csv opened, the first archive that fails to open or to
    extract ends the run with its exception uncaught (BadZipFile, but
    also RuntimeError, NotImplementedError, zlib.error or an OSError:
    the [__main__] block only catches [ConnectionError]). *)
Theorem main_bad_archive_uncaught :
  forall generate rank refused ms pdf_path pages pre a post e st,
    In "codellama:7b" ms ->
    Forall (fun a => exists m, zip_data a = ZipOk m) pre ->
    (zip_data a = ZipBad e \/ exists w, zip_data a = ZipExtractFails w e) ->
    e <> ConnectionError -> (forall c, e <> SystemExit c) ->
    exists st',
      main generate rank refused (Ok ms) pdf_path (Ok pages) None (pre ++ a :: post) st
        = (Uncaught e, st').
Proof.
  intros generate rank refused ms pdf_path pages pre a post e st Hm Hpre Ha Hc Hx.
  apply existsb_model in Hm.
  unfold main, main_body, of_outcome, process_submissions, extract_requirements_file.
  cbv [bind print ret]. rewrite Hm. cbn [negb].
  match goal with
  | |- context [process_archives ?g ?k ?f ?q _ ?s] =>
      destruct (process_archives_first_bad g k f q pre a post e s Hpre Ha) as [st' E];
      rewrite E
  end.
  destruct e; try congruence; try (exfalso; eapply Hx; reflexivity);
    eexists; reflexivity.
Qed.

Lemma main_bad_archive_uncaught_witness :
  exists st',
    main (fun _ => None) (fun _ _ => 0%Z) (fun _ => false) (Ok ["codellama:7b"])
      "/tmp/rubric.pdf" (Ok ["req"]) None
      ([mkArchive "a-1.zip" (ZipOk [])] ++
       mkArchive "b-1.zip" (ZipExtractFails [] (OtherError "NotImplementedError"
                                                 "That compression method is not supported")) ::
       [mkArchive "c-1.zip" (ZipOk [])]) empty_state
      = (Uncaught (OtherError "NotImplementedError" "That compression method is not supported"),
         st').
Proof.
  apply (main_bad_archive_uncaught (fun _ => None) (fun _ _ => 0%Z) (fun _ => false)
           ["codellama:7b"] "/tmp/rubric.pdf" ["req"] [mkArchive "a-1.zip" (ZipOk [])]
           (mkArchive "b-1.zip" (ZipExtractFails [] (OtherError "NotImplementedError"
                                                    "That compression method is not supported")))).
  - left. reflexivity.
  - constructor; [eexists; reflexivity|constructor].
  - right. exists []. reflexivity.
  - discriminate.
  - intro c. discriminate.
Defined.
